(** * SpeedyAPI: a shallow embedding of [src/api.py]

    The client is a thin request builder: every method assembles a
    mapping of fields, posts it as JSON to [base + endpoint] and relays
    the answer.  The embedding keeps that shape:

    - Python values that travel in a request or come back from
      [Response.json()] are values of [PyVal]; a [dict] with string keys
      is a [gmap string PyVal], so that equality of mappings is equality
      of their lookups, as [==] on Python dicts is;
    - the network is a function from the request that is sent to the
      response that comes back (or to no response at all);
    - a method is a computation in the monad [Net], which logs the
      requests sent and either returns a value or raises an exception. *)

From Stdlib Require Import ZArith Ascii String.
From Stdlib.Strings Require Import Byte.
From Stdlib Require PrimFloat.
From stdpp Require Import gmap strings list fin_maps.

Set Warnings "-register-all".
Open Scope Z_scope.

(** ** Python values *)

(** The values the client moves around: [None], booleans, integers,
    floats (binary64, as the decoder of a response can produce them),
    strings, lists and dicts with string keys.  Strings are sequences of
    8-bit characters (the UTF-8 encoding of a Python [str]). *)
Inductive PyVal : Type :=
| PNone
| PBool (b : bool)
| PInt (n : Z)
| PFloat (f : PrimFloat.float)
| PStr (s : string)
| PList (l : list PyVal)
| PDict (d : gmap string PyVal).

Abbreviation PyDict := (gmap string PyVal).

(** Python's truth test, as used by [if x:]. *)
Definition truthy (v : PyVal) : bool :=
  match v with
  | PNone => false
  | PBool b => b
  | PInt n => negb (n =? 0)
  | PFloat f => negb (PrimFloat.eqb f PrimFloat.zero)
  | PStr s => negb (String.length s =? 0)%nat
  | PList l => negb (List.length l =? 0)%nat
  | PDict d => negb (size d =? 0)%nat
  end.

(** [x is not None]. *)
Definition is_not_None (v : PyVal) : bool :=
  match v with
  | PNone => false
  | _ => true
  end.

(** [{**a, **b}]: the entries of [a], then those of [b]; on a key that
    both have, the entry of [b] replaces the one of [a]. *)
Definition unpack2 (a b : PyDict) : PyDict := b ∪ a.

(** ** [str.rstrip] *)

Fixpoint char_in (c : ascii) (chars : string) : bool :=
  match chars with
  | EmptyString => false
  | String c' chars' => Ascii.eqb c c' || char_in c chars'
  end.

(** [s.rstrip(chars)]: [s] without its longest suffix made of characters
    of [chars].  The recursion returns from the end of the string: a
    character is dropped when everything after it has been dropped and
    it belongs to [chars]. *)
Fixpoint rstrip (chars s : string) : string :=
  match s with
  | EmptyString => EmptyString
  | String a s' =>
      match rstrip chars s' with
      | EmptyString => if char_in a chars then EmptyString else String a EmptyString
      | r => String a r
      end
  end.

(** ** The network *)

Record Request : Type := mkRequest {
  req_url : string;     (* first argument of [requests.post] *)
  req_json : PyDict     (* its [json=] argument *)
}.

(** A [requests.Response], through the three members the client reads:
    [json] is the outcome of the method [json()], [None] when it raises
    because the body does not decode. *)
Record Response : Type := mkResponse {
  status_code : Z;
  content : list byte;
  json : option PyVal
}.

Inductive Exn : Type :=
| TransportError               (* [requests.post] got no response *)
| HTTPError (resp : Response)  (* raised by [raise_for_status] *)
| JSONDecodeError.             (* raised by [json()] *)

Inductive outcome (A : Type) : Type :=
| Returned (a : A)
| Raised (e : Exn).
Arguments Returned {A} a.
Arguments Raised {A} e.

(** The remote service: the response to each request, if any. *)
Definition Server : Type := Request -> option Response.

(** The server of a test double: one response, whatever is asked. *)
Definition answering (resp : Response) : Server := fun _ => Some resp.

(** A computation that talks to the service: the requests it sent, in
    order, and how it ended. *)
Definition Net (A : Type) : Type := Server -> list Request * outcome A.

Definition ret {A} (a : A) : Net A := fun _ => ([], Returned a).

Definition raise {A} (e : Exn) : Net A := fun _ => ([], Raised e).

Definition bind {A B} (m : Net A) (f : A -> Net B) : Net B := fun srv =>
  match m srv with
  | (sent, Returned a) => let '(sent', r) := f a srv in (sent ++ sent', r)
  | (sent, Raised e) => (sent, Raised e)
  end.

Declare Scope net_scope.
Delimit Scope net_scope with net.
Notation "x <- m ;; k" := (bind m (fun x => k))
  (at level 100, m at next level, right associativity) : net_scope.
Notation "m ;;; k" := (bind m (fun _ => k))
  (at level 100, right associativity) : net_scope.

Definition sent {A} (m : Net A) (srv : Server) : list Request := fst (m srv).
Definition result {A} (m : Net A) (srv : Server) : outcome A := snd (m srv).

(** [requests.post(url, json=payload)]. *)
Definition requests_post (url : string) (payload : PyDict) : Net Response :=
  fun srv =>
    let req := mkRequest url payload in
    ([req],
     match srv req with
     | Some resp => Returned resp
     | None => Raised TransportError
     end).

(** [resp.raise_for_status()]: raises on a 4xx or a 5xx status, and on no
    other. *)
Definition raise_for_status (resp : Response) : Net unit :=
  if (400 <=? status_code resp) && (status_code resp <? 600)
  then raise (HTTPError resp)
  else ret tt.

(** [resp.json()]. *)
Definition resp_json (resp : Response) : Net PyVal :=
  match json resp with
  | Some v => ret v
  | None => raise JSONDecodeError
  end.

(** ** The client *)

Record SpeedyAPI : Type := mkSpeedyAPI {
  user : PyVal;
  pwd : PyVal;
  base : string;
  lang : PyVal
}.

Definition default_base_url : string := "https://api.speedy.bg/v1/".
Definition default_language : PyVal := PStr "EN".
Definition default_paper_size : PyVal := PStr "A4".

Definition __init__ (username password : PyVal) (base_url : string)
    (language : PyVal) : SpeedyAPI :=
  {| user := username;
     pwd := password;
     base := rstrip "/" base_url +:+ "/";
     lang := language |}.

Section Methods.
Variable self : SpeedyAPI.
Open Scope net_scope.

Definition _post (endpoint : string) (data : PyDict) : Net PyVal :=
  let payload :=
    unpack2 {[ "userName" := user self;
               "password" := pwd self;
               "language" := lang self ]} data in
  resp <- requests_post (base self +:+ endpoint) payload ;;
  raise_for_status resp ;;;
  resp_json resp.

Definition create_shipment (sender recipient service content payment ref1 : PyVal)
    : Net PyVal :=
  let data : PyDict :=
    {[ "sender" := sender;
       "recipient" := recipient;
       "service" := service;
       "content" := content;
       "payment" := payment ]} in
  let data := if truthy ref1 then <["ref1" := ref1]> data else data in
  _post "shipment/" data.

Definition print_waybill (parcels : list PyVal) (paper_size : PyVal)
    : Net (list byte) :=
  let data : PyDict :=
    {[ "parcels" :=
         PList (List.map (fun p => PDict {[ "parcel" := PDict {[ "id" := p ]} ]})
                         parcels);
       "paperSize" := paper_size ]} in
  resp <- requests_post (base self +:+ "print/")
            (unpack2 {[ "userName" := user self; "password" := pwd self ]} data) ;;
  ret (content resp).

Definition get_contract_clients : Net PyVal :=
  _post "client/contract/" ∅.

Definition find_country (name iso_alpha2 : PyVal) : Net PyVal :=
  let data : PyDict := ∅ in
  let data := if truthy name then <["name" := name]> data else data in
  let data := if truthy iso_alpha2 then <["isoAlpha2" := iso_alpha2]> data else data in
  _post "location/country/" data.

Definition find_state (country_id name : PyVal) : Net PyVal :=
  _post "location/state/" {[ "countryId" := country_id; "name" := name ]}.

Definition find_office (country_id site_id name : PyVal) : Net PyVal :=
  let data : PyDict := ∅ in
  let data := if is_not_None country_id then <["countryId" := country_id]> data else data in
  let data := if is_not_None site_id then <["siteId" := site_id]> data else data in
  let data := if truthy name then <["name" := name]> data else data in
  _post "location/office/" data.

Definition find_site (country_id name post_code site_type region : PyVal)
    : Net PyVal :=
  let data : PyDict := {[ "countryId" := country_id ]} in
  let data := if truthy name then <["name" := name]> data else data in
  let data := if truthy post_code then <["postCode" := post_code]> data else data in
  let data := if truthy site_type then <["type" := site_type]> data else data in
  let data := if truthy region then <["region" := region]> data else data in
  _post "location/site/" data.

Definition find_complex (site_id name : PyVal) : Net PyVal :=
  _post "location/complex/" {[ "siteId" := site_id; "name" := name ]}.

Definition find_street (site_id name street_type : PyVal) : Net PyVal :=
  let data : PyDict := {[ "siteId" := site_id; "name" := name ]} in
  let data := if truthy street_type then <["type" := street_type]> data else data in
  _post "location/street/" data.

Definition find_poi (site_id name : PyVal) : Net PyVal :=
  _post "location/poi/" {[ "siteId" := site_id; "name" := name ]}.

Definition destination_services (sender_client_id recipient date : PyVal)
    : Net PyVal :=
  let data : PyDict := ∅ in
  let data := if truthy date then <["date" := date]> data else data in
  let data :=
    if is_not_None sender_client_id
    then <["sender" := PDict {[ "clientId" := sender_client_id ]}]> data
    else data in
  let data := if truthy recipient then <["recipient" := recipient]> data else data in
  _post "services/destination" data.

Definition calculate (sender recipient : PyVal) : Net PyVal :=
  _post "services/destination" {[ "sender" := sender; "recipient" := recipient ]}.

End Methods.

(** ** The client's surface as a whole *)

(** A call of one of the twelve public methods, with its arguments. *)
Inductive Call : Type :=
| CreateShipment (sender recipient service content payment ref1 : PyVal)
| PrintWaybill (parcels : list PyVal) (paper_size : PyVal)
| GetContractClients
| FindCountry (name iso_alpha2 : PyVal)
| FindState (country_id name : PyVal)
| FindOffice (country_id site_id name : PyVal)
| FindSite (country_id name post_code site_type region : PyVal)
| FindComplex (site_id name : PyVal)
| FindStreet (site_id name street_type : PyVal)
| FindPoi (site_id name : PyVal)
| DestinationServices (sender_client_id recipient date : PyVal)
| Calculate (sender recipient : PyVal).

(** What a call hands back: decoded JSON, or the bytes of a document. *)
Inductive Ret : Type :=
| RJson (v : PyVal)
| RBytes (b : list byte).

Definition net_map {A B} (f : A -> B) (m : Net A) : Net B :=
  bind m (fun a => ret (f a)).

Definition invoke (self : SpeedyAPI) (c : Call) : Net Ret :=
  match c with
  | CreateShipment sender recipient service content payment ref1 =>
      net_map RJson (create_shipment self sender recipient service content payment ref1)
  | PrintWaybill parcels paper_size =>
      net_map RBytes (print_waybill self parcels paper_size)
  | GetContractClients =>
      net_map RJson (get_contract_clients self)
  | FindCountry name iso_alpha2 =>
      net_map RJson (find_country self name iso_alpha2)
  | FindState country_id name =>
      net_map RJson (find_state self country_id name)
  | FindOffice country_id site_id name =>
      net_map RJson (find_office self country_id site_id name)
  | FindSite country_id name post_code site_type region =>
      net_map RJson (find_site self country_id name post_code site_type region)
  | FindComplex site_id name =>
      net_map RJson (find_complex self site_id name)
  | FindStreet site_id name street_type =>
      net_map RJson (find_street self site_id name street_type)
  | FindPoi site_id name =>
      net_map RJson (find_poi self site_id name)
  | DestinationServices sender_client_id recipient date =>
      net_map RJson (destination_services self sender_client_id recipient date)
  | Calculate sender recipient =>
      net_map RJson (calculate self sender recipient)
  end.

Definition is_print_waybill (c : Call) : bool :=
  match c with
  | PrintWaybill _ _ => true
  | _ => false
  end.

(** ** Vocabulary of the statements *)

(** [m] sends exactly one request, and its JSON body satisfies [P]. *)
Definition sends_body {A} (m : Net A) (srv : Server) (P : PyDict -> Prop) : Prop :=
  exists req, sent m srv = [req] /\ P (req_json req).

(** [m] sends exactly one request, to [url]. *)
Definition sends_to {A} (m : Net A) (srv : Server) (url : string) : Prop :=
  exists req, sent m srv = [req] /\ req_url req = url.

(** The service answers [resp] to whatever [m] sends. *)
Definition answers {A} (srv : Server) (m : Net A) (resp : Response) : Prop :=
  forall req, In req (sent m srv) -> srv req = Some resp.


(** The three fields every JSON call carries. *)
Definition credentials (username password language : PyVal) : PyDict :=
  {[ "userName" := username; "password" := password; "language" := language ]}.

(** [n] slashes. *)
Fixpoint slashes (n : nat) : string :=
  match n with
  | O => EmptyString
  | S n' => String "/" (slashes n')
  end.

(** The last character of [s] is [c]. *)
Fixpoint ends_with (c : ascii) (s : string) : bool :=
  match s with
  | EmptyString => false
  | String a EmptyString => Ascii.eqb a c
  | String _ s' => ends_with c s'
  end.

(** Passing [m_empty]'s argument is as passing nothing: the same request
    goes out as for [m_none], and its body has no entry [key]. *)
Definition omitted_like_None {A} (m_empty m_none : Net A) (srv : Server)
    (key : string) : Prop :=
  sent m_empty srv = sent m_none srv /\
  sends_body m_empty srv (fun body => body !! key = None).

(** A service that cannot be reached. *)
Definition unreachable : Server := fun _ => None.

(** The entry of an optional field: there with the caller's value when
    the test [sent_when] lets the value through, absent otherwise. *)
Definition optional_entry (sent_when : PyVal -> bool) (v : PyVal) : option PyVal :=
  if sent_when v then Some v else None.

(** ** Valid JSON *)

(** Valid JSON, in the words of the specification: a text of the grammar
    of RFC 8259, read on the bytes of a body.  Each function below
    recognises one production at the head of its input and returns what
    follows it.  Bytes above [0x7f] inside a string are let through as
    they are. *)

Definition is_ws (b : byte) : bool :=
  match b with
  | x20 | x09 | x0a | x0d => true
  | _ => false
  end.

Definition is_digit (b : byte) : bool :=
  (48 <=? Byte.to_N b)%N && (Byte.to_N b <=? 57)%N.

Definition is_digit1_9 (b : byte) : bool :=
  (49 <=? Byte.to_N b)%N && (Byte.to_N b <=? 57)%N.

Definition is_hexdig (b : byte) : bool :=
  is_digit b
  || ((65 <=? Byte.to_N b)%N && (Byte.to_N b <=? 70)%N)
  || ((97 <=? Byte.to_N b)%N && (Byte.to_N b <=? 102)%N).

(** The characters that may follow a backslash, [u] apart. *)
Definition is_escape (b : byte) : bool :=
  match b with
  | x22 | x5c | x2f | x62 | x66 | x6e | x72 | x74 => true
  | _ => false
  end.

Fixpoint skip_ws (s : list byte) : list byte :=
  match s with
  | b :: r => if is_ws b then skip_ws r else s
  | [] => []
  end.

Fixpoint skip_digits (s : list byte) : list byte :=
  match s with
  | b :: r => if is_digit b then skip_digits r else s
  | [] => []
  end.

(** [strip_prefix p s]: [s] without its prefix [p], if it has it. *)
Fixpoint strip_prefix (p s : list byte) : option (list byte) :=
  match p, s with
  | [], _ => Some s
  | a :: p', b :: s' => if Byte.eqb a b then strip_prefix p' s' else None
  | _ :: _, [] => None
  end.

(** A string, after its opening quotation mark. *)
Fixpoint json_string_rest (s : list byte) : option (list byte) :=
  match s with
  | [] => None
  | x22 :: r => Some r
  | x5c :: r =>
      match r with
      | [] => None
      | x75 :: r1 =>
          match r1 with
          | h1 :: h2 :: h3 :: h4 :: r2 =>
              if is_hexdig h1 && is_hexdig h2 && is_hexdig h3 && is_hexdig h4
              then json_string_rest r2
              else None
          | _ => None
          end
      | e :: r1 => if is_escape e then json_string_rest r1 else None
      end
  | b :: r => if (32 <=? Byte.to_N b)%N then json_string_rest r else None
  end.

(** [int = zero / ( digit1-9 *DIGIT )]. *)
Definition json_int (s : list byte) : option (list byte) :=
  match s with
  | x30 :: r => Some r
  | b :: r => if is_digit1_9 b then Some (skip_digits r) else None
  | [] => None
  end.

(** [[ frac ]], with [frac = "." 1*DIGIT]. *)
Definition json_frac (s : list byte) : option (list byte) :=
  match s with
  | x2e :: d :: r => if is_digit d then Some (skip_digits r) else None
  | x2e :: [] => None
  | _ => Some s
  end.

(** One or more digits. *)
Definition json_digits1 (s : list byte) : option (list byte) :=
  match s with
  | d :: r => if is_digit d then Some (skip_digits r) else None
  | [] => None
  end.

(** [[ exp ]], with [exp = e [ minus / plus ] 1*DIGIT]. *)
Definition json_exp (s : list byte) : option (list byte) :=
  match s with
  | x65 :: r | x45 :: r =>
      match r with
      | x2b :: r' | x2d :: r' => json_digits1 r'
      | _ => json_digits1 r
      end
  | _ => Some s
  end.

(** [number = [ minus ] int [ frac ] [ exp ]]. *)
Definition json_number (s : list byte) : option (list byte) :=
  let s1 := match s with x2d :: r => r | _ => s end in
  match json_int s1 with
  | Some r1 =>
      match json_frac r1 with
      | Some r2 => json_exp r2
      | None => None
      end
  | None => None
  end.

(** A value, the elements of an array after its opening bracket, and
    the members of an object after its opening brace.  [fuel] bounds the
    depth of the recursion. *)
Fixpoint json_value (fuel : nat) (s : list byte) : option (list byte) :=
  match fuel with
  | O => None
  | S fuel' =>
      match s with
      | x7b :: r =>
          match skip_ws r with
          | x7d :: r' => Some r'
          | r' => json_members fuel' r'
          end
      | x5b :: r =>
          match skip_ws r with
          | x5d :: r' => Some r'
          | r' => json_elements fuel' r'
          end
      | x22 :: r => json_string_rest r
      | x74 :: _ => strip_prefix [x74; x72; x75; x65] s
      | x66 :: _ => strip_prefix [x66; x61; x6c; x73; x65] s
      | x6e :: _ => strip_prefix [x6e; x75; x6c; x6c] s
      | _ => json_number s
      end
  end
with json_elements (fuel : nat) (s : list byte) : option (list byte) :=
  match fuel with
  | O => None
  | S fuel' =>
      match json_value fuel' s with
      | Some r =>
          match skip_ws r with
          | x2c :: r' => json_elements fuel' (skip_ws r')
          | x5d :: r' => Some r'
          | _ => None
          end
      | None => None
      end
  end
with json_members (fuel : nat) (s : list byte) : option (list byte) :=
  match fuel with
  | O => None
  | S fuel' =>
      match s with
      | x22 :: r =>
          match json_string_rest r with
          | Some r1 =>
              match skip_ws r1 with
              | x3a :: r2 =>
                  match json_value fuel' (skip_ws r2) with
                  | Some r3 =>
                      match skip_ws r3 with
                      | x2c :: r4 => json_members fuel' (skip_ws r4)
                      | x7d :: r4 => Some r4
                      | _ => None
                      end
                  | None => None
                  end
              | _ => None
              end
          | None => None
          end
      | _ => None
      end
  end.

(** [JSON-text = ws value ws].  A level of nesting takes two units of
    fuel and at least one byte, so that twice the length is enough. *)
Definition valid_json (body : list byte) : bool :=
  match json_value (2 * List.length body + 2) (skip_ws body) with
  | Some r =>
      match skip_ws r with
      | [] => true
      | _ => false
      end
  | None => false
  end.


(** ** Sample objects for the examples *)

Definition api0 : SpeedyAPI :=
  __init__ (PStr "demo") (PStr "secret") default_base_url default_language.

(** The bytes of [{}]. *)
Definition empty_object_bytes : list byte := [x7b; x7d].

(** The bytes of [%PDF]. *)
Definition pdf_bytes : list byte := [x25; x50; x44; x46].

(** The bytes of [oops]. *)
Definition oops_bytes : list byte := [x6f; x6f; x70; x73].

Definition resp_ok : Response :=
  {| status_code := 200; content := empty_object_bytes; json := Some (PDict ∅) |}.

Definition resp_pdf : Response :=
  {| status_code := 200; content := pdf_bytes; json := None |}.

Definition resp_300 : Response :=
  {| status_code := 300; content := empty_object_bytes; json := Some (PDict ∅) |}.

Definition resp_404 : Response :=
  {| status_code := 404; content := oops_bytes; json := None |}.




(** * Properties *)

(** ** Base URL normalisation *)

Section Rstrip.

Lemma char_in_slash (a : ascii) : char_in a "/" = Ascii.eqb a "/".
Proof. simpl. apply orb_false_r. Qed.

Lemma append_empty_l (s : string) : "" +:+ s = s.
Proof. reflexivity. Qed.

Lemma append_String (a : ascii) (s t : string) :
  String a s +:+ t = String a (s +:+ t).
Proof. reflexivity. Qed.

Ltac push_append := rewrite ?append_String, ?append_empty_l in *.

(** What [rstrip] removes is a run of slashes. *)
Lemma rstrip_slashes (s : string) :
  exists n, s = rstrip "/" s +:+ slashes n.
Proof.
  induction s as [|a s' [n IH]].
  - exists 0%nat. reflexivity.
  - cbn [rstrip]. destruct (rstrip "/" s') as [|b r] eqn:E.
    + rewrite char_in_slash. destruct (Ascii.eqb a "/") eqn:Ea.
      * apply Ascii.eqb_eq in Ea. subst a. exists (S n).
        push_append. simpl. congruence.
      * exists n. push_append. congruence.
    + exists n. push_append. congruence.
Qed.

(** What [rstrip] leaves does not end with a slash. *)
Lemma rstrip_no_trailing_slash (s : string) :
  ends_with "/" (rstrip "/" s) = false.
Proof.
  induction s as [|a s' IH].
  - reflexivity.
  - cbn [rstrip]. destruct (rstrip "/" s') as [|b r] eqn:E.
    + rewrite char_in_slash. destruct (Ascii.eqb a "/") eqn:Ea.
      * reflexivity.
      * simpl. exact Ea.
    + exact IH.
Qed.

Lemma ends_with_app_slash (s : string) : ends_with "/" (s +:+ "/") = true.
Proof.
  induction s as [|a s' IH].
  - reflexivity.
  - push_append. simpl. destruct (s' +:+ "/") eqn:E.
    + destruct s'; discriminate.
    + exact IH.
Qed.

(** A string that does not end with a slash, followed by slashes,
    splits in one way only. *)
Lemma core_unique (c1 c2 : string) (n1 n2 : nat) :
  ends_with "/" c1 = false -> ends_with "/" c2 = false ->
  c1 +:+ slashes n1 = c2 +:+ slashes n2 -> c1 = c2.
Proof.
  revert c2. induction c1 as [|a c1' IH]; intros c2 H1 H2 Heq.
  - destruct c2 as [|b c2']; [reflexivity|]. exfalso.
    push_append. revert b c2' H2 Heq.
    induction n1 as [|n1' IHn]; intros b c2' H2 Heq; [discriminate|].
    simpl in Heq. injection Heq as <- Heq.
    destruct c2' as [|b' c2''].
    + simpl in H2. discriminate.
    + push_append. apply (IHn b' c2''); [exact H2 | exact Heq].
  - destruct c2 as [|b c2'].
    + exfalso. push_append. clear IH. revert a c1' H1 Heq.
      induction n2 as [|n2' IHn]; intros a c1' H1 Heq; [discriminate|].
      simpl in Heq. injection Heq as -> Heq.
      destruct c1' as [|a' c1''].
      * simpl in H1. discriminate.
      * push_append. apply (IHn a' c1''); [exact H1 | exact Heq].
    + push_append. injection Heq as -> Heq. f_equal.
      apply IH; [| |exact Heq].
      * destruct c1'; [reflexivity | exact H1].
      * destruct c2'; [reflexivity | exact H2].
Qed.

End Rstrip.

(** C4.  Whatever the base URL given to the constructor, with no, one or
    several trailing slashes, the stored base is that URL without its
    trailing slashes, followed by one slash.  The input splits as a core
    that does not end with a slash followed by [n] slashes, and for any
    such split the stored base is the core followed by a single slash,
    which leaves it with exactly one trailing slash. *)
Theorem base_url_normalised (username password : PyVal) (base_url : string)
    (language : PyVal) :
  (exists (core : string) (n : nat),
      base_url = core +:+ slashes n /\ ends_with "/" core = false) /\
  (forall (core : string) (n : nat),
      base_url = core +:+ slashes n ->
      ends_with "/" core = false ->
      base (__init__ username password base_url language) = core +:+ "/") /\
  ends_with "/" (base (__init__ username password base_url language)) = true.
Proof.
  destruct (rstrip_slashes base_url) as [m Hm].
  pose proof (rstrip_no_trailing_slash base_url) as Hr.
  split; [|split].
  - exists (rstrip "/" base_url), m. split; [exact Hm | exact Hr].
  - intros core n Hsplit Hcore. simpl.
    rewrite (core_unique core (rstrip "/" base_url) n m Hcore Hr); [reflexivity|].
    rewrite <- Hsplit. exact Hm.
  - simpl. apply ends_with_app_slash.
Qed.

Example base_url_none : base (__init__ PNone PNone "http://h/v1" PNone) = "http://h/v1/".
Proof. reflexivity. Qed.

Example base_url_one : base (__init__ PNone PNone "http://h/v1/" PNone) = "http://h/v1/".
Proof. reflexivity. Qed.

Example base_url_many : base (__init__ PNone PNone "http://h/v1///" PNone) = "http://h/v1/".
Proof. reflexivity. Qed.

Example base_url_only_slashes : base (__init__ PNone PNone "//" PNone) = "/".
Proof. reflexivity. Qed.

(** ** The shared dispatch *)

Section Dispatch.
Variable self : SpeedyAPI.

(** The one request of [_post], and the body it carries. *)
Lemma sent_post (endpoint : string) (data : PyDict) (srv : Server) :
  sent (_post self endpoint data) srv =
  [mkRequest (base self +:+ endpoint)
             (unpack2 (credentials (user self) (pwd self) (lang self)) data)].
Proof.
  unfold sent, _post, bind, requests_post, raise_for_status, resp_json. simpl.
  destruct (srv _) as [resp|]; [|reflexivity].
  destruct (_ && _); [reflexivity|]. simpl.
  destruct (json resp); reflexivity.
Qed.

(** How [_post] ends, by cases on what the service does. *)
Lemma result_post (endpoint : string) (data : PyDict) (srv : Server) :
  result (_post self endpoint data) srv =
  match srv (mkRequest (base self +:+ endpoint)
                       (unpack2 (credentials (user self) (pwd self) (lang self)) data)) with
  | None => Raised TransportError
  | Some resp =>
      if (400 <=? status_code resp) && (status_code resp <? 600)
      then Raised (HTTPError resp)
      else match json resp with
           | Some v => Returned v
           | None => Raised JSONDecodeError
           end
  end.
Proof.
  unfold result, _post, bind, requests_post, raise_for_status, resp_json. simpl.
  destruct (srv _) as [resp|]; [|reflexivity].
  destruct (_ && _); [reflexivity|]. simpl.
  destruct (json resp); reflexivity.
Qed.

Lemma sent_net_map {A B} (f : A -> B) (m : Net A) (srv : Server) :
  sent (net_map f m) srv = sent m srv.
Proof.
  unfold sent, net_map, bind, ret. destruct (m srv) as [l [a|e]]; simpl; [|reflexivity].
  apply app_nil_r.
Qed.

Lemma result_net_map {A B} (f : A -> B) (m : Net A) (srv : Server) :
  result (net_map f m) srv =
  match result m srv with
  | Returned a => Returned (f a)
  | Raised e => Raised e
  end.
Proof.
  unfold result, net_map, bind, ret. destruct (m srv) as [l [a|e]]; reflexivity.
Qed.

(** A key of the call-specific fields wins; any other key is looked up
    in the first mapping. *)
Lemma lookup_unpack2 (a b : PyDict) (k : string) :
  unpack2 a b !! k = match b !! k with Some v => Some v | None => a !! k end.
Proof.
  unfold unpack2. destruct (b !! k) as [v|] eqn:E.
  - apply lookup_union_Some_l. exact E.
  - apply lookup_union_r. exact E.
Qed.

(** Every method but [print_waybill] is a call of [_post], on a mapping
    that has none of the keys [userName], [password], [language]. *)
Lemma invoke_is_post (c : Call) :
  is_print_waybill c = false ->
  exists (endpoint : string) (data : PyDict),
    invoke self c = net_map RJson (_post self endpoint data) /\
    data !! "userName" = None /\ data !! "password" = None /\
    data !! "language" = None.
Proof.
  intros Hc. destruct c; try discriminate Hc; simpl;
    unfold create_shipment, get_contract_clients, find_country, find_state,
      find_office, find_site, find_complex, find_street, find_poi,
      destination_services, calculate;
    repeat match goal with
           | |- context [if ?b then _ else _] => destruct b
           end;
    (eexists _, _; split; [reflexivity|]; repeat split; simplify_map_eq; reflexivity).
Qed.

End Dispatch.

Section Failures.
Variable self : SpeedyAPI.

(** When the service answers [resp] to a call that goes through [_post],
    the call ends as [_post] does on [resp]. *)
Lemma result_invoke_post (c : Call) (srv : Server) (resp : Response) :
  is_print_waybill c = false ->
  answers srv (invoke self c) resp ->
  result (invoke self c) srv =
  if (400 <=? status_code resp) && (status_code resp <? 600)
  then Raised (HTTPError resp)
  else match json resp with
       | Some v => Returned (RJson v)
       | None => Raised JSONDecodeError
       end.
Proof.
  intros Hc Hans.
  destruct (invoke_is_post self c Hc) as (endpoint & data & Heq & _).
  unfold answers in Hans. rewrite Heq in *.
  rewrite sent_net_map, sent_post in Hans.
  rewrite result_net_map, result_post, (Hans _ (or_introl eq_refl)).
  destruct (_ && _); [reflexivity|].
  destruct (json resp); reflexivity.
Qed.

End Failures.

(** C1, as amended.  For every operation other than [print_waybill], if
    the HTTP response has a 4xx or 5xx status (400 <= status < 600), the
    call fails with an HTTP status error that carries the response (its
    status code and body) and returns no value. *)
Theorem http_error_status_aborts (self : SpeedyAPI) (c : Call) (srv : Server)
    (resp : Response) :
  is_print_waybill c = false ->
  answers srv (invoke self c) resp ->
  400 <= status_code resp < 600 ->
  result (invoke self c) srv = Raised (HTTPError resp).
Proof.
  intros Hc Hans [Hlo Hhi].
  rewrite (result_invoke_post self c srv resp Hc Hans).
  apply Z.leb_le in Hlo. apply Z.ltb_lt in Hhi. rewrite Hlo, Hhi. reflexivity.
Qed.

Lemma http_error_status_aborts_witness :
  is_print_waybill (FindCountry (PStr "Germany") PNone) = false /\
  answers (answering resp_404)
          (invoke api0 (FindCountry (PStr "Germany") PNone)) resp_404 /\
  400 <= status_code resp_404 < 600 /\
  result (invoke api0 (FindCountry (PStr "Germany") PNone)) (answering resp_404)
  = Raised (HTTPError resp_404).
Proof.
  assert (H1 : is_print_waybill (FindCountry (PStr "Germany") PNone) = false)
    by reflexivity.
  assert (H2 : answers (answering resp_404)
                 (invoke api0 (FindCountry (PStr "Germany") PNone)) resp_404)
    by (intros req _; reflexivity).
  assert (H3 : 400 <= status_code resp_404 < 600) by (simpl; lia).
  split; [exact H1|]. split; [exact H2|]. split; [exact H3|].
  exact (http_error_status_aborts api0 (FindCountry (PStr "Germany") PNone)
           (answering resp_404) resp_404 H1 H2 H3).
Defined.

(** C1, as stated, fails twice.  [print_waybill] never looks at the
    status: on a 404 it returns the body of the error page.  And the
    other operations let a status outside 400..599 through: on a 300
    whose body decodes, [get_contract_clients] returns the decoded
    value. *)
Lemma non_2xx_response_can_return :
  (status_code resp_404 <? 200) || (300 <=? status_code resp_404) = true /\
  result (invoke api0 (PrintWaybill [PStr "123"] default_paper_size))
         (answering resp_404)
  = Returned (RBytes oops_bytes) /\
  (status_code resp_300 <? 200) || (300 <=? status_code resp_300) = true /\
  result (invoke api0 GetContractClients) (answering resp_300)
  = Returned (RJson (PDict ∅)).
Proof. repeat split. Qed.




(** The recogniser at work: an object with every kind of value, nested
    arrays, and texts that the grammar refuses. *)
Example valid_json_object :
  (* an object whose one member, named a, is the array of 1, -2.5e3, a
     string with an escape, null, true, false and an empty object *)
  valid_json [x7b; x22; x61; x22; x3a; x20; x5b; x31; x2c; x20; x2d; x32; x2e; x35;
              x65; x33; x2c; x20; x22; x78; x5c; x6e; x22; x2c; x20; x6e; x75; x6c;
              x6c; x2c; x20; x74; x72; x75; x65; x2c; x20; x66; x61; x6c; x73; x65;
              x2c; x20; x7b; x7d; x5d; x7d] = true.
Proof. reflexivity. Qed.

Example valid_json_nested :
  (* [[[[]]]] and {} *)
  valid_json [x5b; x5b; x5b; x5b; x5d; x5d; x5d; x5d] = true /\
  valid_json empty_object_bytes = true.
Proof. split; reflexivity. Qed.

Example invalid_json_texts :
  (* oops, Infinity, [1,] and 01 *)
  valid_json oops_bytes = false /\
  valid_json [x49; x6e; x66; x69; x6e; x69; x74; x79] = false /\
  valid_json [x5b; x31; x2c; x5d] = false /\
  valid_json [x30; x31] = false.
Proof. repeat split. Qed.

(** ** Request bodies *)

Section Bodies.
Variable self : SpeedyAPI.

Lemma sent_print_waybill (parcels : list PyVal) (paper_size : PyVal) (srv : Server) :
  sent (print_waybill self parcels paper_size) srv =
  [mkRequest (base self +:+ "print/")
     (unpack2 {[ "userName" := user self; "password" := pwd self ]}
        {[ "parcels" :=
             PList (List.map (fun p => PDict {[ "parcel" := PDict {[ "id" := p ]} ]})
                             parcels);
           "paperSize" := paper_size ]})].
Proof.
  unfold sent, print_waybill, bind, requests_post, ret. simpl.
  destruct (srv _); reflexivity.
Qed.

Lemma result_print_waybill (parcels : list PyVal) (paper_size : PyVal) (srv : Server) :
  result (print_waybill self parcels paper_size) srv =
  match srv (mkRequest (base self +:+ "print/")
     (unpack2 {[ "userName" := user self; "password" := pwd self ]}
        {[ "parcels" :=
             PList (List.map (fun p => PDict {[ "parcel" := PDict {[ "id" := p ]} ]})
                             parcels);
           "paperSize" := paper_size ]})) with
  | Some resp => Returned (content resp)
  | None => Raised TransportError
  end.
Proof.
  unfold result, print_waybill, bind, requests_post, ret. simpl.
  destruct (srv _); reflexivity.
Qed.

(** The body of a call that goes through [_post]. *)
Lemma sends_body_post (endpoint : string) (data : PyDict) (srv : Server)
    (P : PyDict -> Prop) :
  P (unpack2 (credentials (user self) (pwd self) (lang self)) data) ->
  sends_body (_post self endpoint data) srv P.
Proof.
  intros HP. unfold sends_body. rewrite sent_post. eexists. split; [reflexivity|].
  exact HP.
Qed.

End Bodies.

(** Reduce a statement on the body of a method to one on a mapping. *)
Ltac method_body :=
  unfold create_shipment, get_contract_clients, find_country, find_state,
    find_office, find_site, find_complex, find_street, find_poi,
    destination_services, calculate;
  cbn [truthy is_not_None String.length Nat.eqb negb Z.eqb];
  apply sends_body_post.

(** Look a key up in a body. *)
Ltac body_lookup :=
  rewrite ?lookup_unpack2; unfold credentials;
  repeat match goal with
         | |- context [if ?b then _ else _] => destruct b
         end;
  simplify_map_eq; try reflexivity.

(** C2.  For all constructor inputs and every operation other than
    [print_waybill], the one request sent carries the mapping
    [{userName, password, language}] of the constructor inputs merged
    with the call-specific fields, the latter merged last: a key of the
    call-specific fields, were it one of the first three, would keep the
    call-specific value.  The fields of the operations never collide,
    so that the three entries match the constructor inputs. *)
Theorem json_call_body (username password : PyVal) (base_url : string)
    (language : PyVal) (c : Call) (srv : Server) :
  is_print_waybill c = false ->
  (forall (endpoint : string) (data : PyDict),
      sends_body (_post (__init__ username password base_url language) endpoint data) srv
        (fun body =>
           body = unpack2 (credentials username password language) data /\
           forall k, body !! k = match data !! k with
                                 | Some v => Some v
                                 | None => credentials username password language !! k
                                 end)) /\
  (exists (endpoint : string) (data : PyDict),
      invoke (__init__ username password base_url language) c
      = net_map RJson (_post (__init__ username password base_url language) endpoint data) /\
      sends_body (invoke (__init__ username password base_url language) c) srv
        (fun body =>
           body = unpack2 (credentials username password language) data /\
           body !! "userName" = Some username /\
           body !! "password" = Some password /\
           body !! "language" = Some language)).
Proof.
  intros Hc. split.
  - intros endpoint data. apply sends_body_post. simpl. split; [reflexivity|].
    intros k. apply lookup_unpack2.
  - destruct (invoke_is_post (__init__ username password base_url language) c Hc)
      as (endpoint & data & Heq & Hu & Hp & Hl).
    exists endpoint, data. split; [exact Heq|].
    unfold sends_body. rewrite Heq, sent_net_map, sent_post.
    eexists. split; [reflexivity|]. simpl.
    split; [reflexivity|].
    rewrite !lookup_unpack2, Hu, Hp, Hl. unfold credentials.
    repeat split; simplify_map_eq; reflexivity.
Qed.

Lemma json_call_body_witness :
  is_print_waybill (FindState (PInt 100) (PStr "Sofia")) = false /\
  sends_body (invoke api0 (FindState (PInt 100) (PStr "Sofia"))) (answering resp_ok)
    (fun body =>
       body = {[ "userName" := PStr "demo"; "password" := PStr "secret";
                 "language" := PStr "EN";
                 "countryId" := PInt 100; "name" := PStr "Sofia" ]}).
Proof.
  assert (H1 : is_print_waybill (FindState (PInt 100) (PStr "Sofia")) = false)
    by reflexivity.
  split; [exact H1|].
  destruct (json_call_body (PStr "demo") (PStr "secret") default_base_url
              default_language (FindState (PInt 100) (PStr "Sofia"))
              (answering resp_ok) H1)
    as (_ & endpoint & data & _ & req & Hsent & Hbody & _).
  exists req. split; [exact Hsent|].
  injection Hsent as <-. reflexivity.
Defined.

(** A call-specific field named as a credential field does override it. *)
Example post_override :
  sends_body (_post api0 "x/" {[ "language" := PStr "BG" ]}) (answering resp_ok)
    (fun body => body !! "language" = Some (PStr "BG") /\
                 body !! "userName" = Some (PStr "demo")).
Proof. apply sends_body_post. split; reflexivity. Qed.

(** ** Printing *)

(** C3.  Whatever the inputs, the body of the request of [print_waybill]
    has the fields [userName] and [password], those of the constructor,
    and no field [language]: its keys are [userName], [password],
    [parcels] and [paperSize]. *)
Theorem print_waybill_body_has_no_language (username password : PyVal)
    (base_url : string) (language : PyVal) (parcels : list PyVal)
    (paper_size : PyVal) (srv : Server) :
  sends_body
    (print_waybill (__init__ username password base_url language) parcels paper_size)
    srv
    (fun body =>
       body !! "userName" = Some username /\
       body !! "password" = Some password /\
       body !! "language" = None /\
       dom body = ({[ "userName"; "password"; "parcels"; "paperSize" ]} : gset string)).
Proof.
  unfold sends_body. rewrite sent_print_waybill. eexists. split; [reflexivity|].
  simpl. rewrite !lookup_unpack2.
  split; [by simplify_map_eq|]. split; [by simplify_map_eq|].
  split; [by simplify_map_eq|].
  unfold unpack2. rewrite dom_union_L, !dom_insert_L, !dom_singleton_L. set_solver.
Qed.

(** C6.  [print_waybill(["123","456"], paper_size="A5")] sends the fields
    [parcels], one [{parcel: {id: ...}}] per identifier, and [paperSize],
    with the two credential fields, and returns the bytes of the
    response as they are: neither the status nor the JSON decoder is
    consulted. *)
Theorem print_waybill_example (self : SpeedyAPI) (srv : Server) :
  let body : PyDict :=
    {[ "userName" := user self;
       "password" := pwd self;
       "parcels" := PList [ PDict {[ "parcel" := PDict {[ "id" := PStr "123" ]} ]};
                            PDict {[ "parcel" := PDict {[ "id" := PStr "456" ]} ]} ];
       "paperSize" := PStr "A5" ]} in
  body = unpack2 {[ "userName" := user self; "password" := pwd self ]}
           {[ "parcels" :=
                PList [ PDict {[ "parcel" := PDict {[ "id" := PStr "123" ]} ]};
                        PDict {[ "parcel" := PDict {[ "id" := PStr "456" ]} ]} ];
              "paperSize" := PStr "A5" ]} /\
  sent (print_waybill self [PStr "123"; PStr "456"] (PStr "A5")) srv
  = [mkRequest (base self +:+ "print/") body] /\
  result (print_waybill self [PStr "123"; PStr "456"] (PStr "A5")) srv
  = match srv (mkRequest (base self +:+ "print/") body) with
    | Some resp => Returned (content resp)
    | None => Raised TransportError
    end.
Proof.
  intros body.
  assert (Hbody : body = unpack2 {[ "userName" := user self; "password" := pwd self ]}
           {[ "parcels" :=
                PList [ PDict {[ "parcel" := PDict {[ "id" := PStr "123" ]} ]};
                        PDict {[ "parcel" := PDict {[ "id" := PStr "456" ]} ]} ];
              "paperSize" := PStr "A5" ]}).
  { apply map_eq. intros k. subst body. rewrite lookup_unpack2.
    destruct (decide (k = "parcels")) as [->|]; [reflexivity|].
    destruct (decide (k = "paperSize")) as [->|]; [reflexivity|].
    destruct (decide (k = "userName")) as [->|]; [reflexivity|].
    destruct (decide (k = "password")) as [->|]; [reflexivity|].
    by simplify_map_eq. }
  split; [exact Hbody|]. split.
  - rewrite sent_print_waybill, Hbody. reflexivity.
  - rewrite result_print_waybill, Hbody. reflexivity.
Qed.

Example print_waybill_returns_pdf :
  result (print_waybill api0 [PStr "123"; PStr "456"] (PStr "A5")) (answering resp_pdf)
  = Returned pdf_bytes.
Proof. reflexivity. Qed.

(** ** Service lookup *)

(** C7.  With a sender client id, [destination_services] sends a field
    [sender] whose value is the object [{clientId: id}]. *)
Theorem destination_services_wraps_sender (self : SpeedyAPI)
    (sender_client_id recipient date : PyVal) (srv : Server) :
  sender_client_id <> PNone ->
  sends_body (destination_services self sender_client_id recipient date) srv
    (fun body => body !! "sender" = Some (PDict {[ "clientId" := sender_client_id ]})).
Proof.
  intros Hid. method_body.
  replace (is_not_None sender_client_id) with true
    by (destruct sender_client_id; [contradiction|reflexivity..]).
  body_lookup.
Qed.

Lemma destination_services_wraps_sender_witness :
  PInt 42 <> PNone /\
  sends_body (destination_services api0 (PInt 42) PNone PNone) (answering resp_ok)
    (fun body => body !! "sender" = Some (PDict {[ "clientId" := PInt 42 ]})).
Proof.
  assert (H : PInt 42 <> PNone) by discriminate.
  split; [exact H|].
  exact (destination_services_wraps_sender api0 (PInt 42) PNone PNone
           (answering resp_ok) H).
Defined.

(** C8.  [calculate] posts to the URL [destination_services] posts to,
    [base + "services/destination"], and its call-specific fields are
    [sender] and [recipient], each the caller's value as given: the
    sender is not wrapped into [{clientId: ...}]. *)
Theorem calculate_same_endpoint_full_sender (self : SpeedyAPI)
    (sender recipient : PyVal) (srv : Server) :
  sent (calculate self sender recipient) srv
  = [mkRequest (base self +:+ "services/destination")
       (unpack2 (credentials (user self) (pwd self) (lang self))
                {[ "sender" := sender; "recipient" := recipient ]})] /\
  (forall (sender_client_id recipient' date : PyVal),
      sends_to (destination_services self sender_client_id recipient' date) srv
               (base self +:+ "services/destination")) /\
  sends_body (calculate self sender recipient) srv
    (fun body =>
       body !! "sender" = Some sender /\
       body !! "recipient" = Some recipient /\
       dom body = ({[ "userName"; "password"; "language"; "sender"; "recipient" ]}
                   : gset string)).
Proof.
  split; [|split].
  - unfold calculate. apply sent_post.
  - intros sender_client_id recipient' date. unfold sends_to, destination_services.
    rewrite sent_post. eexists. split; reflexivity.
  - method_body. rewrite !lookup_unpack2.
    split; [by simplify_map_eq|]. split; [by simplify_map_eq|].
    unfold unpack2, credentials. rewrite dom_union_L, !dom_insert_L, !dom_singleton_L.
    set_solver.
Qed.

Example calculate_vs_destination_services :
  sends_body (calculate api0 (PDict {[ "clientId" := PInt 42 ]}) (PDict ∅))
    (answering resp_ok)
    (fun body => body !! "sender" = Some (PDict {[ "clientId" := PInt 42 ]})) /\
  sends_body (destination_services api0 (PDict {[ "clientId" := PInt 42 ]}) PNone PNone)
    (answering resp_ok)
    (fun body => body !! "sender"
                 = Some (PDict {[ "clientId" := PDict {[ "clientId" := PInt 42 ]} ]})).
Proof. split; method_body; reflexivity. Qed.

(** ** Optional parameters *)

(** C5, as amended.  An optional parameter whose default is [None]
    ([ref1] of [create_shipment]; [name] and [iso_alpha2] of
    [find_country]; [country_id], [site_id] and [name] of [find_office];
    [name], [post_code], [site_type] and [region] of [find_site];
    [street_type] of [find_street]; [sender_client_id], [recipient] and
    [date] of [destination_services]) produces no key in the request body
    when it is left unset.  [find_country()] sends the credential and
    language fields only, and [find_country(name="Germany")] sends them
    with [name: "Germany"] and no [isoAlpha2].  The optional [paper_size]
    of [print_waybill] is of another kind: left unset it is ["A4"], and
    [paperSize: "A4"] is sent. *)
Theorem unset_optional_is_absent (self : SpeedyAPI) (srv : Server) :
  (forall sender recipient service content payment,
      sends_body (create_shipment self sender recipient service content payment PNone)
        srv (fun body => body !! "ref1" = None)) /\
  sends_body (find_country self PNone PNone) srv
    (fun body => body = credentials (user self) (pwd self) (lang self)) /\
  sends_body (find_country self (PStr "Germany") PNone) srv
    (fun body =>
       body = <["name" := PStr "Germany"]> (credentials (user self) (pwd self) (lang self)) /\
       body !! "name" = Some (PStr "Germany") /\
       body !! "isoAlpha2" = None) /\
  (forall iso_alpha2,
      sends_body (find_country self PNone iso_alpha2) srv
        (fun body => body !! "name" = None)) /\
  (forall name,
      sends_body (find_country self name PNone) srv
        (fun body => body !! "isoAlpha2" = None)) /\
  (forall site_id name,
      sends_body (find_office self PNone site_id name) srv
        (fun body => body !! "countryId" = None)) /\
  (forall country_id name,
      sends_body (find_office self country_id PNone name) srv
        (fun body => body !! "siteId" = None)) /\
  (forall country_id site_id,
      sends_body (find_office self country_id site_id PNone) srv
        (fun body => body !! "name" = None)) /\
  (forall country_id post_code site_type region,
      sends_body (find_site self country_id PNone post_code site_type region) srv
        (fun body => body !! "name" = None)) /\
  (forall country_id name site_type region,
      sends_body (find_site self country_id name PNone site_type region) srv
        (fun body => body !! "postCode" = None)) /\
  (forall country_id name post_code region,
      sends_body (find_site self country_id name post_code PNone region) srv
        (fun body => body !! "type" = None)) /\
  (forall country_id name post_code site_type,
      sends_body (find_site self country_id name post_code site_type PNone) srv
        (fun body => body !! "region" = None)) /\
  (forall site_id name,
      sends_body (find_street self site_id name PNone) srv
        (fun body => body !! "type" = None)) /\
  (forall recipient date,
      sends_body (destination_services self PNone recipient date) srv
        (fun body => body !! "sender" = None)) /\
  (forall sender_client_id date,
      sends_body (destination_services self sender_client_id PNone date) srv
        (fun body => body !! "recipient" = None)) /\
  (forall sender_client_id recipient,
      sends_body (destination_services self sender_client_id recipient PNone) srv
        (fun body => body !! "date" = None)) /\
  (forall parcels,
      sends_body (print_waybill self parcels default_paper_size) srv
        (fun body => body !! "paperSize" = Some (PStr "A4"))).
Proof.
  repeat apply conj; intros.
  1-16: method_body.
  - body_lookup.
  - unfold unpack2. apply (left_id_L ∅ (∪)).
  - split; [|split].
    + unfold unpack2. rewrite <- insert_union_l. by rewrite (left_id_L ∅ (∪)).
    + body_lookup.
    + body_lookup.
  - body_lookup.
  - body_lookup.
  - body_lookup.
  - body_lookup.
  - body_lookup.
  - body_lookup.
  - body_lookup.
  - body_lookup.
  - body_lookup.
  - body_lookup.
  - body_lookup.
  - body_lookup.
  - body_lookup.
  - unfold sends_body. rewrite sent_print_waybill. eexists. split; [reflexivity|].
    simpl. rewrite lookup_unpack2. by simplify_map_eq.
Qed.

(** C5, as stated, fails on [print_waybill]: its optional [paper_size],
    left unset, is the default ["A4"], and the body does have the key
    [paperSize]. *)
Lemma unset_paper_size_is_sent :
  sends_body (print_waybill api0 [PStr "123"] default_paper_size) (answering resp_pdf)
    (fun body => body !! "paperSize" = Some (PStr "A4") /\
                 body !! "paperSize" <> None).
Proof.
  unfold sends_body. eexists. split; [reflexivity|].
  split; [reflexivity | discriminate].
Qed.

(** ** Empty strings and zeros *)

Ltac like_None :=
  split; [reflexivity | method_body; body_lookup].

(** C10.  For each optional string parameter, the empty string is as no
    argument at all: the request is the one sent when the parameter is
    [None], with the key left out.  The optional integer parameters are
    tested against [None] instead, so that [0] is sent. *)
Theorem empty_string_is_omitted_zero_is_sent (self : SpeedyAPI) (srv : Server) :
  (forall sender recipient service content payment,
      omitted_like_None
        (create_shipment self sender recipient service content payment (PStr ""))
        (create_shipment self sender recipient service content payment PNone)
        srv "ref1") /\
  (forall iso_alpha2,
      omitted_like_None (find_country self (PStr "") iso_alpha2)
                        (find_country self PNone iso_alpha2) srv "name") /\
  (forall name,
      omitted_like_None (find_country self name (PStr ""))
                        (find_country self name PNone) srv "isoAlpha2") /\
  (forall country_id site_id,
      omitted_like_None (find_office self country_id site_id (PStr ""))
                        (find_office self country_id site_id PNone) srv "name") /\
  (forall country_id post_code site_type region,
      omitted_like_None (find_site self country_id (PStr "") post_code site_type region)
                        (find_site self country_id PNone post_code site_type region)
                        srv "name") /\
  (forall country_id name site_type region,
      omitted_like_None (find_site self country_id name (PStr "") site_type region)
                        (find_site self country_id name PNone site_type region)
                        srv "postCode") /\
  (forall country_id name post_code region,
      omitted_like_None (find_site self country_id name post_code (PStr "") region)
                        (find_site self country_id name post_code PNone region)
                        srv "type") /\
  (forall country_id name post_code site_type,
      omitted_like_None (find_site self country_id name post_code site_type (PStr ""))
                        (find_site self country_id name post_code site_type PNone)
                        srv "region") /\
  (forall site_id name,
      omitted_like_None (find_street self site_id name (PStr ""))
                        (find_street self site_id name PNone) srv "type") /\
  (forall sender_client_id recipient,
      omitted_like_None (destination_services self sender_client_id recipient (PStr ""))
                        (destination_services self sender_client_id recipient PNone)
                        srv "date") /\
  (forall site_id name,
      sends_body (find_office self (PInt 0) site_id name) srv
        (fun body => body !! "countryId" = Some (PInt 0))) /\
  (forall country_id name,
      sends_body (find_office self country_id (PInt 0) name) srv
        (fun body => body !! "siteId" = Some (PInt 0))) /\
  (forall recipient date,
      sends_body (destination_services self (PInt 0) recipient date) srv
        (fun body => body !! "sender" = Some (PDict {[ "clientId" := PInt 0 ]}))).
Proof.
  repeat apply conj; intros.
  1-10: like_None.
  all: method_body; body_lookup.
Qed.

Example find_country_empty_name :
  sends_body (find_country api0 (PStr "") (PStr "")) (answering resp_ok)
    (fun body => body = {[ "userName" := PStr "demo"; "password" := PStr "secret";
                           "language" := PStr "EN" ]}).
Proof. method_body. reflexivity. Qed.

Example find_office_zero :
  sends_body (find_office api0 (PInt 0) (PInt 0) (PStr "")) (answering resp_ok)
    (fun body => body = {[ "userName" := PStr "demo"; "password" := PStr "secret";
                           "language" := PStr "EN";
                           "countryId" := PInt 0; "siteId" := PInt 0 ]}).
Proof. method_body. reflexivity. Qed.

(** * Further properties of the client *)

(** ** How a call ends *)

(** When the service gives no response to the request of a call, the
    call raises the transport error, whichever the method, printing
    included. *)
Theorem transport_failure_raises (self : SpeedyAPI) (c : Call) (srv : Server) :
  (forall req, In req (sent (invoke self c) srv) -> srv req = None) ->
  result (invoke self c) srv = Raised TransportError.
Proof.
  intros Hnone. destruct (is_print_waybill c) eqn:Hc.
  - destruct c; try discriminate Hc. simpl in *.
    rewrite sent_net_map, sent_print_waybill in Hnone.
    rewrite result_net_map, result_print_waybill, (Hnone _ (or_introl eq_refl)).
    reflexivity.
  - destruct (invoke_is_post self c Hc) as (endpoint & data & Heq & _).
    rewrite Heq in *. rewrite sent_net_map, sent_post in Hnone.
    rewrite result_net_map, result_post, (Hnone _ (or_introl eq_refl)).
    reflexivity.
Qed.

Lemma transport_failure_raises_witness :
  (forall req, In req (sent (invoke api0 (FindPoi (PInt 68134) (PStr "mall"))) unreachable)
               -> unreachable req = None) /\
  result (invoke api0 (FindPoi (PInt 68134) (PStr "mall"))) unreachable
  = Raised TransportError.
Proof.
  assert (H : forall req,
             In req (sent (invoke api0 (FindPoi (PInt 68134) (PStr "mall"))) unreachable)
             -> unreachable req = None)
    by (intros req _; reflexivity).
  split; [exact H|].
  exact (transport_failure_raises api0 (FindPoi (PInt 68134) (PStr "mall"))
           unreachable H).
Defined.

(** For every method but [print_waybill], a response whose status is
    outside 400..599 and whose body decodes is relayed: the call returns
    the decoded value, unchanged. *)
Theorem decoded_response_is_returned (self : SpeedyAPI) (c : Call) (srv : Server)
    (resp : Response) (v : PyVal) :
  is_print_waybill c = false ->
  answers srv (invoke self c) resp ->
  status_code resp < 400 \/ 600 <= status_code resp ->
  json resp = Some v ->
  result (invoke self c) srv = Returned (RJson v).
Proof.
  intros Hc Hans Hstatus Hjson.
  rewrite (result_invoke_post self c srv resp Hc Hans), Hjson.
  destruct Hstatus as [Hlo|Hhi].
  - replace (400 <=? status_code resp) with false by (symmetry; apply Z.leb_gt; lia).
    reflexivity.
  - replace (status_code resp <? 600) with false by (symmetry; apply Z.ltb_ge; lia).
    rewrite andb_false_r. reflexivity.
Qed.

Lemma decoded_response_is_returned_witness :
  is_print_waybill GetContractClients = false /\
  answers (answering resp_ok) (invoke api0 GetContractClients) resp_ok /\
  (status_code resp_ok < 400 \/ 600 <= status_code resp_ok) /\
  json resp_ok = Some (PDict ∅) /\
  result (invoke api0 GetContractClients) (answering resp_ok)
  = Returned (RJson (PDict ∅)).
Proof.
  assert (H1 : is_print_waybill GetContractClients = false) by reflexivity.
  assert (H2 : answers (answering resp_ok) (invoke api0 GetContractClients) resp_ok)
    by (intros req _; reflexivity).
  assert (H3 : status_code resp_ok < 400 \/ 600 <= status_code resp_ok)
    by (left; simpl; lia).
  assert (H4 : json resp_ok = Some (PDict ∅)) by reflexivity.
  split; [exact H1|]. split; [exact H2|]. split; [exact H3|]. split; [exact H4|].
  exact (decoded_response_is_returned api0 GetContractClients (answering resp_ok)
           resp_ok (PDict ∅) H1 H2 H3 H4).
Defined.

(** Whatever the parcels and the paper size, [print_waybill] returns the
    bytes of any response it gets, error pages and bodies that are not
    JSON included. *)
Theorem print_waybill_relays_any_response (self : SpeedyAPI) (parcels : list PyVal)
    (paper_size : PyVal) (srv : Server) (resp : Response) :
  answers srv (print_waybill self parcels paper_size) resp ->
  result (print_waybill self parcels paper_size) srv = Returned (content resp).
Proof.
  intros Hans. unfold answers in Hans. rewrite sent_print_waybill in Hans.
  rewrite result_print_waybill, (Hans _ (or_introl eq_refl)). reflexivity.
Qed.

Lemma print_waybill_relays_any_response_witness :
  answers (answering resp_404) (print_waybill api0 [] PNone) resp_404 /\
  result (print_waybill api0 [] PNone) (answering resp_404) = Returned oops_bytes.
Proof.
  assert (H : answers (answering resp_404) (print_waybill api0 [] PNone) resp_404)
    by (intros req _; reflexivity).
  split; [exact H|].
  exact (print_waybill_relays_any_response api0 [] PNone (answering resp_404)
           resp_404 H).
Defined.

(** ** Shapes of the bodies *)

Lemma lookup_List_map {A B} (f : A -> B) (l : list A) (i : nat) :
  List.map f l !! i = f <$> (l !! i).
Proof.
  revert i. induction l as [|x l IH]; intros [|i]; simpl; try reflexivity.
  apply IH.
Qed.

(** [print_waybill] sends one entry [{parcel: {id: p}}] per parcel, in
    the order of the argument and as many as there are parcels (none for
    an empty list), and the paper size as it was given. *)
Theorem parcels_are_wrapped_in_order (self : SpeedyAPI) (parcels : list PyVal)
    (paper_size : PyVal) (srv : Server) :
  sends_body (print_waybill self parcels paper_size) srv
    (fun body =>
       exists entries : list PyVal,
         body !! "parcels" = Some (PList entries) /\
         List.length entries = List.length parcels /\
         (forall (i : nat) (p : PyVal),
             parcels !! i = Some p ->
             entries !! i = Some (PDict {[ "parcel" := PDict {[ "id" := p ]} ]})) /\
         (parcels = [] -> entries = []) /\
         body !! "paperSize" = Some paper_size).
Proof.
  unfold sends_body. rewrite sent_print_waybill. eexists. split; [reflexivity|].
  simpl. eexists. rewrite !lookup_unpack2.
  split; [by simplify_map_eq|].
  split; [apply List.length_map|].
  split; [|split].
  - intros i p Hp. rewrite lookup_List_map, Hp. reflexivity.
  - intros ->. reflexivity.
  - by simplify_map_eq.
Qed.

(** [create_shipment] sends the five sections under their own names with
    the caller's values, [ref1] when it is truthy and only then, and
    nothing else beside the credential fields. *)
Theorem create_shipment_body (self : SpeedyAPI)
    (sender recipient service content payment ref1 : PyVal) (srv : Server) :
  sends_body (create_shipment self sender recipient service content payment ref1) srv
    (fun body =>
       body !! "sender" = Some sender /\
       body !! "recipient" = Some recipient /\
       body !! "service" = Some service /\
       body !! "content" = Some content /\
       body !! "payment" = Some payment /\
       body !! "ref1" = optional_entry truthy ref1 /\
       dom body =
         ({[ "userName"; "password"; "language";
             "sender"; "recipient"; "service"; "content"; "payment" ]}
          ∪ (if truthy ref1 then {[ "ref1" ]} else ∅) : gset string)).
Proof.
  unfold create_shipment, optional_entry. apply sends_body_post.
  rewrite !lookup_unpack2. unfold unpack2, credentials.
  destruct (truthy ref1).
  - split; [by simplify_map_eq|]. split; [by simplify_map_eq|].
    split; [by simplify_map_eq|]. split; [by simplify_map_eq|].
    split; [by simplify_map_eq|]. split; [by simplify_map_eq|].
    rewrite dom_union_L, !dom_insert_L, !dom_singleton_L. set_solver.
  - split; [by simplify_map_eq|]. split; [by simplify_map_eq|].
    split; [by simplify_map_eq|]. split; [by simplify_map_eq|].
    split; [by simplify_map_eq|]. split; [by simplify_map_eq|].
    rewrite dom_union_L, !dom_insert_L, !dom_singleton_L. set_solver.
Qed.

Ltac optional_lookup :=
  unfold optional_entry; rewrite ?lookup_unpack2; unfold credentials;
  repeat match goal with
         | |- context [if ?b then _ else _] => destruct b
         end;
  by simplify_map_eq.

(** Each optional field follows its own test and no other argument: a
    field guarded by [if x:] is sent, with the caller's value, exactly
    when the value is truthy (so [0], [False], [""], [[]] and [{}] are
    left out as [None] is), and a field guarded by [is not None] is sent
    for every value but [None]. *)
Theorem optional_fields_follow_their_test (self : SpeedyAPI) (srv : Server) :
  (forall name iso_alpha2,
      sends_body (find_country self name iso_alpha2) srv
        (fun body =>
           body !! "name" = optional_entry truthy name /\
           body !! "isoAlpha2" = optional_entry truthy iso_alpha2)) /\
  (forall country_id site_id name,
      sends_body (find_office self country_id site_id name) srv
        (fun body =>
           body !! "countryId" = optional_entry is_not_None country_id /\
           body !! "siteId" = optional_entry is_not_None site_id /\
           body !! "name" = optional_entry truthy name)) /\
  (forall country_id name post_code site_type region,
      sends_body (find_site self country_id name post_code site_type region) srv
        (fun body =>
           body !! "name" = optional_entry truthy name /\
           body !! "postCode" = optional_entry truthy post_code /\
           body !! "type" = optional_entry truthy site_type /\
           body !! "region" = optional_entry truthy region)) /\
  (forall site_id name street_type,
      sends_body (find_street self site_id name street_type) srv
        (fun body => body !! "type" = optional_entry truthy street_type)) /\
  (forall sender_client_id recipient date,
      sends_body (destination_services self sender_client_id recipient date) srv
        (fun body =>
           body !! "date" = optional_entry truthy date /\
           body !! "sender"
           = (if is_not_None sender_client_id
              then Some (PDict {[ "clientId" := sender_client_id ]})
              else None) /\
           body !! "recipient" = optional_entry truthy recipient)).
Proof.
  split; [|split; [|split; [|split]]]; intros;
    unfold find_country, find_office, find_site, find_street, destination_services;
    apply sends_body_post.
  - split; optional_lookup.
  - split; [|split]; optional_lookup.
  - split; [|split; [|split]]; optional_lookup.
  - optional_lookup.
  - split; [|split]; optional_lookup.
Qed.

Example falsy_values_are_left_out :
  sends_body (find_site api0 (PInt 100) (PInt 0) (PBool false) (PList []) (PDict ∅))
    (answering resp_ok)
    (fun body => body = {[ "userName" := PStr "demo"; "password" := PStr "secret";
                           "language" := PStr "EN"; "countryId" := PInt 100 ]}).
Proof. unfold find_site. apply sends_body_post. reflexivity. Qed.

(** Required arguments are sent whatever their value, [None] and the
    empty string included: no test guards them.  The bodies of
    [find_state], [find_complex] and [find_poi] are the credential
    fields and their two fields; [find_site] always has [countryId],
    [find_street] always has [siteId] and [name]. *)
Theorem required_fields_are_always_sent (self : SpeedyAPI) (srv : Server) :
  (forall country_id name,
      sends_body (find_state self country_id name) srv
        (fun body =>
           body = <["countryId" := country_id]>
                    (<["name" := name]> (credentials (user self) (pwd self) (lang self))))) /\
  (forall site_id name,
      sends_body (find_complex self site_id name) srv
        (fun body =>
           body = <["siteId" := site_id]>
                    (<["name" := name]> (credentials (user self) (pwd self) (lang self))))) /\
  (forall site_id name,
      sends_body (find_poi self site_id name) srv
        (fun body =>
           body = <["siteId" := site_id]>
                    (<["name" := name]> (credentials (user self) (pwd self) (lang self))))) /\
  (forall country_id name post_code site_type region,
      sends_body (find_site self country_id name post_code site_type region) srv
        (fun body => body !! "countryId" = Some country_id)) /\
  (forall site_id name street_type,
      sends_body (find_street self site_id name street_type) srv
        (fun body => body !! "siteId" = Some site_id /\ body !! "name" = Some name)).
Proof.
  assert (Htwo : forall (k1 k2 : string) (v1 v2 : PyVal) (m : PyDict),
             unpack2 m {[ k1 := v1; k2 := v2 ]} = <[k1 := v1]> (<[k2 := v2]> m)).
  { intros k1 k2 v1 v2 m. unfold unpack2.
    rewrite <- insert_union_l, <- insert_union_singleton_l. reflexivity. }
  split; [|split; [|split; [|split]]]; intros;
    unfold find_state, find_complex, find_poi, find_site, find_street;
    apply sends_body_post.
  - apply Htwo.
  - apply Htwo.
  - apply Htwo.
  - optional_lookup.
  - split; optional_lookup.
Qed.

Example find_state_sends_None_and_empty :
  sends_body (find_state api0 PNone (PStr "")) (answering resp_ok)
    (fun body => body !! "countryId" = Some PNone /\ body !! "name" = Some (PStr "")).
Proof. unfold find_state. apply sends_body_post. split; reflexivity. Qed.

(** A call with nothing to say sends the credential fields alone:
    [get_contract_clients], and [find_office] and [destination_services]
    when all their arguments are left out. *)
Theorem bare_calls_send_credentials_only (self : SpeedyAPI) (srv : Server) :
  sends_body (get_contract_clients self) srv
    (fun body => body = credentials (user self) (pwd self) (lang self)) /\
  sends_body (find_office self PNone PNone PNone) srv
    (fun body => body = credentials (user self) (pwd self) (lang self)) /\
  sends_body (destination_services self PNone PNone PNone) srv
    (fun body => body = credentials (user self) (pwd self) (lang self)).
Proof.
  split; [|split]; method_body; unfold unpack2; apply (left_id_L ∅ (∪)).
Qed.

(** ** The stored base, again *)

Section BaseInvariance.

Lemma append_assoc (s t u : string) : (s +:+ t) +:+ u = s +:+ (t +:+ u).
Proof.
  induction s as [|a s IH]; [reflexivity|].
  change (String a ((s +:+ t) +:+ u) = String a (s +:+ (t +:+ u))).
  f_equal. exact IH.
Qed.

Lemma slashes_add (m n : nat) : slashes (m + n) = slashes m +:+ slashes n.
Proof.
  induction m as [|m IH]; [reflexivity|].
  change (String "/" (slashes (m + n)) = String "/" (slashes m +:+ slashes n)).
  f_equal. exact IH.
Qed.

(** [rstrip] finds the core of any string given as a core and slashes. *)
Lemma rstrip_core (core : string) (n : nat) :
  ends_with "/" core = false -> rstrip "/" (core +:+ slashes n) = core.
Proof.
  intros Hcore. destruct (rstrip_slashes (core +:+ slashes n)) as [m Hm].
  symmetry.
  apply (core_unique core (rstrip "/" (core +:+ slashes n)) n m Hcore
           (rstrip_no_trailing_slash _) Hm).
Qed.

End BaseInvariance.

(** Trailing slashes of the base URL are immaterial, and normalising is
    idempotent: a URL and the same URL with more slashes at its end give
    the same client, and a client built from the stored base of another
    stores the same base. *)
Theorem base_ignores_trailing_slashes (username password : PyVal) (base_url : string)
    (language : PyVal) :
  (forall n : nat,
      __init__ username password (base_url +:+ slashes n) language
      = __init__ username password base_url language) /\
  base (__init__ username password
          (base (__init__ username password base_url language)) language)
  = base (__init__ username password base_url language).
Proof.
  destruct (rstrip_slashes base_url) as [m Hm].
  pose proof (rstrip_no_trailing_slash base_url) as Hr.
  split.
  - intros n. unfold __init__. f_equal. f_equal.
    rewrite Hm at 1. rewrite append_assoc, <- slashes_add.
    apply rstrip_core. exact Hr.
  - simpl. f_equal.
    apply (rstrip_core (rstrip "/" base_url) 1 Hr).
Qed.

Example default_base_is_kept : base api0 = default_base_url.
Proof. reflexivity. Qed.
